(** * fastapi_rest_utils: bulk registration of a viewset's routes

    A shallow embedding of [fastapi_rest_utils/router.py]
    ([RestRouter.register_viewset]) and of the descriptor contract of
    [fastapi_rest_utils/protocols.py], with the properties of the
    registration loop proved over it. *)

From stdpp Require Import gmap strings list fin_maps.

Set Warnings "-register-all".

(** ** Python values and exceptions *)

(** The values that descriptors and keyword overrides carry ([Any] in the
    type hints).  [VObj] stands for an opaque object (a [Depends(...)]
    marker, a schema class), known by its identity only. *)
Inductive Value : Type :=
  | VNone
  | VBool (b : bool)
  | VInt (n : Z)
  | VStr (s : string)
  | VList (xs : list Value)
  | VDict (items : list (string * Value))
  | VObj (id : nat).

Inductive Exn : Type :=
  | AttributeError (attr : string)
  | TypeError (msg : string)
  | FrameworkError (msg : string).

(** ** protocols.py: the route descriptor *)

(** [RouteConfigDict]: [path], [method], [endpoint_name] are the keys the
    loop subscripts; every other key is read with [.get] or not at all, so
    it is optional here ([None] is an absent key). *)
Module RouteConfigDict.
Record t : Type := mk {
  path : string;
  method : string;
  endpoint_name : string;
  response_model : option Value;
  dependencies : option (list Value);
  tags : option (list string);
  openapi_extra : option Value;
  name : option string;
  summary : option string;
  description : option string;
  deprecated : option bool;
  include_in_schema : option bool;
  kwargs : option Value
}.
End RouteConfigDict.

(** A viewset class: the attribute names that resolve on its instances and
    what [routes_config()] returns on a fresh instance. *)
Record ViewsetClass : Type := {
  attributes : gset string;
  cls_routes_config : list RouteConfigDict.t
}.

(** An instance, known by the order of its construction. *)
Record Viewset : Type := {
  instance_id : nat;
  instance_class : ViewsetClass
}.

(** What [getattr(viewset, name)] yields: the attribute [bound_name] resolved
    on (bound to) the instance [bound_self]. *)
Record Endpoint : Type := {
  bound_self : nat;
  bound_name : string
}.

(** ** The router's route table *)

(** One entry of [self.routes]: the arguments [add_api_route] was called
    with, the remaining keyword overrides in [kwargs]. *)
Module APIRoute.
Record t : Type := mk {
  path : string;
  endpoint : Endpoint;
  methods : list string;
  tags : option (list string);
  response_model : Value;
  openapi_extra : Value;
  dependencies : list Value;
  kwargs : gmap string Value
}.
End APIRoute.

(** The state a registration runs in: the router's route table and the
    number of viewset instances constructed so far. *)
Record World : Type := {
  routes : list APIRoute.t;
  constructed : nat
}.

(** ** State and exceptions

    A raised exception keeps the state reached so far: Python does not undo
    the mutations made before the [raise]. *)
Definition M (A : Type) : Type := World → World * (Exn + A).

#[global] Instance M_ret : MRet M := λ A x w, (w, inr x).

#[global] Instance M_bind : MBind M := λ A B f m w,
  match m w with
  | (w', inl e) => (w', inl e)
  | (w', inr x) => f x w'
  end.

Definition raise {A : Type} (e : Exn) : M A := λ w, (w, inl e).

(** ** Python primitives used by the loop *)

(** [viewset_class()]: the class is the caller's code; its constructor is
    taken to return, and the instance gets the next identity. *)
Definition construct (viewset_class : ViewsetClass) : M Viewset := λ w,
  ({| routes := routes w; constructed := S (constructed w) |},
   inr {| instance_id := constructed w; instance_class := viewset_class |}).

(** [viewset.routes_config()]: the caller's code again, taken to return
    the class's descriptor sequence and to leave the router alone. *)
Definition routes_config (viewset : Viewset) : M (list RouteConfigDict.t) :=
  mret (cls_routes_config (instance_class viewset)).

(** [getattr(viewset, name)]: the attribute bound to the instance, or
    [AttributeError]. *)
Definition getattr (viewset : Viewset) (name : string) : M Endpoint :=
  if decide (name ∈ attributes (instance_class viewset))
  then mret {| bound_self := instance_id viewset; bound_name := name |}
  else raise (AttributeError name).

(** [d.get(key)] and [d.get(key, default)] on an optional key. *)
Definition get {A : Type} (field : option A) (dflt : A) : A :=
  match field with
  | Some v => v
  | None => dflt
  end.

(** [kwargs.pop(key, default)]: the value and the dict without the key. *)
Definition pop (key : string) (dflt : Value) (kwargs : gmap string Value)
  : Value * gmap string Value :=
  (get (kwargs !! key) dflt, delete key kwargs).

(** [xs + v] for a list [xs]: only a list can be concatenated to a list. *)
Definition list_add (xs : list Value) (v : Value) : M (list Value) :=
  match v with
  | VList ys => mret (xs ++ ys)
  | _ => raise (TypeError "can only concatenate list to list")
  end.

(** The keywords the call of [add_api_route] passes by name. *)
Definition explicit_keywords : list string :=
  ["path"; "endpoint"; "methods"; "tags"; "response_model"; "openapi_extra";
   "dependencies"].

Definition has_key (kwargs : gmap string Value) (k : string) : bool :=
  match kwargs !! k with
  | Some _ => true
  | None => false
  end.

Section Host.

(** The host framework's own checks on a route ([None]: accepted). *)
Variable host_check : APIRoute.t → option Exn.

(** [self.add_api_route(path=..., ..., dependencies=..., **kwargs)].
    The host framework's primitive is not part of the repository: a call
    that repeats in [**kwargs] a keyword passed by name is a [TypeError];
    a route the host rejects raises the host's exception; otherwise one
    entry holding the arguments is appended to [self.routes]. *)
Definition add_api_route (path : string) (endpoint : Endpoint)
    (methods : list string) (tags : option (list string))
    (response_model openapi_extra : Value) (dependencies : list Value)
    (kwargs : gmap string Value) : M unit := λ w,
  if existsb (has_key kwargs) explicit_keywords
  then (w, inl (TypeError "got multiple values for keyword argument"))
  else
    let route := APIRoute.mk path endpoint methods tags response_model
                   openapi_extra dependencies kwargs in
    match host_check route with
    | Some e => (w, inl e)
    | None =>
        ({| routes := routes w ++ [route]; constructed := constructed w |},
         inr ())
    end.

(** ** router.py: RestRouter.register_viewset *)

(** The [for route_config in routes_config] loop; [kwargs] is the local
    dict that [pop] mutates, so each iteration hands it on. *)
Fixpoint register_routes (viewset : Viewset) (prefix : string)
    (tags : option (list string)) (routes_config : list RouteConfigDict.t)
    (kwargs : gmap string Value) : M unit :=
  match routes_config with
  | [] => mret ()
  | route_config :: rest =>
      endpoint ← getattr viewset (RouteConfigDict.endpoint_name route_config);
      let path := prefix +:+ RouteConfigDict.path route_config in
      let response_model := get (RouteConfigDict.response_model route_config) VNone in
      let openapi_extra := get (RouteConfigDict.openapi_extra route_config) VNone in
      let route_dependencies := get (RouteConfigDict.dependencies route_config) [] in
      let '(kwargs_dependencies, kwargs) := pop "dependencies" (VList []) kwargs in
      all_dependencies ← list_add route_dependencies kwargs_dependencies;
      add_api_route path endpoint [RouteConfigDict.method route_config] tags
        response_model openapi_extra all_dependencies kwargs;;
      register_routes viewset prefix tags rest kwargs
  end.

Definition register_viewset (viewset_class : ViewsetClass) (prefix : string)
    (tags : option (list string)) (kwargs : gmap string Value) : M unit :=
  viewset ← construct viewset_class;
  routes_config ← routes_config viewset;
  register_routes viewset prefix tags routes_config kwargs.

End Host.

(** ** What a run of the loop leaves in the route table *)

(** The instance [viewset_class()] yields in the world [w]. *)
Definition fresh_viewset (viewset_class : ViewsetClass) (w : World) : Viewset :=
  {| instance_id := constructed w; instance_class := viewset_class |}.

(** The entries of the route table of [w'] that come after those of [w]. *)
Definition added (w w' : World) : list APIRoute.t :=
  drop (length (routes w)) (routes w').

(** The world after [entries] were appended to the route table of [w]. *)
Definition with_routes (w : World) (entries : list APIRoute.t) : World :=
  {| routes := routes w ++ entries; constructed := constructed w |}.

(** The list a caller supplied under the [dependencies] keyword. *)
Definition caller_dependencies (kwargs : gmap string Value) : list Value :=
  match kwargs !! "dependencies" with
  | Some (VList deps) => deps
  | _ => []
  end.

(** The entry the loop adds for the descriptor at position [i]: only the
    iteration that pops [dependencies] (the first) sees the caller's list. *)
Definition route_of (viewset : Viewset) (prefix : string)
    (tags : option (list string)) (kwargs : gmap string Value)
    (i : nat) (route_config : RouteConfigDict.t) : APIRoute.t :=
  APIRoute.mk
    (prefix +:+ RouteConfigDict.path route_config)
    {| bound_self := instance_id viewset;
       bound_name := RouteConfigDict.endpoint_name route_config |}
    [RouteConfigDict.method route_config]
    tags
    (get (RouteConfigDict.response_model route_config) VNone)
    (get (RouteConfigDict.openapi_extra route_config) VNone)
    (get (RouteConfigDict.dependencies route_config) [] ++
       match i with O => caller_dependencies kwargs | S _ => [] end)
    (delete "dependencies" kwargs).

(** The keyword overrides can be forwarded: [dependencies], when given, is
    a list, and no other key repeats a keyword passed by name. *)
Definition overrides_ok (kwargs : gmap string Value) : bool :=
  match kwargs !! "dependencies" with
  | Some (VList _) | None => true
  | Some _ => false
  end
  && negb (existsb (has_key (delete "dependencies" kwargs)) explicit_keywords).

(** The descriptor fields the loop reads; the others are blanked. *)
Definition read_fields (route_config : RouteConfigDict.t) : RouteConfigDict.t :=
  RouteConfigDict.mk
    (RouteConfigDict.path route_config)
    (RouteConfigDict.method route_config)
    (RouteConfigDict.endpoint_name route_config)
    (RouteConfigDict.response_model route_config)
    (RouteConfigDict.dependencies route_config)
    None
    (RouteConfigDict.openapi_extra route_config)
    None None None None None None.

(** ** The viewset of the test suite

    Two descriptors, [GET /] on [list] and [POST /] on [create], the second
    with an OpenAPI [requestBody]. *)
Definition mock_list : RouteConfigDict.t :=
  RouteConfigDict.mk "/" "GET" "list" None None None None
    None None None None None None.

Definition mock_create : RouteConfigDict.t :=
  RouteConfigDict.mk "/" "POST" "create" None (Some [VObj 1]) (Some ["mock"])
    (Some (VDict [("requestBody", VDict [("required", VBool true)])]))
    (Some "create") (Some "Create") None (Some false) None None.

Definition mock_routes : list RouteConfigDict.t := [mock_list; mock_create].

Definition mock_viewset_with_routes : ViewsetClass :=
  {| attributes := {["list"; "create"; "routes_config"; "schema_config"]};
     cls_routes_config := mock_routes |}.

(** A viewset whose second descriptor names a handler it does not have. *)
Definition broken_viewset : ViewsetClass :=
  {| attributes := {["list"; "routes_config"; "schema_config"]};
     cls_routes_config := mock_routes |}.

(** A host that accepts every route, and one that wants a leading slash. *)
Definition accept_all (route : APIRoute.t) : option Exn := None.

Definition leading_slash (route : APIRoute.t) : option Exn :=
  if String.prefix "/" (APIRoute.path route)
  then None
  else Some (FrameworkError "Routed paths must start with '/'").

Definition empty_world : World := {| routes := []; constructed := 0 |}.

(** A dependency the caller supplies, and the overrides carrying it. *)
Definition auth : Value := VObj 7.

Definition with_auth : gmap string Value :=
  {["dependencies" := VList [auth]]}.

(** The entry for [mock_create] (second descriptor) under the prefix
    [/mock], bound to the first instance ever constructed. *)
Definition mock_create_route (tags : option (list string))
    (kwargs : gmap string Value) : APIRoute.t :=
  APIRoute.mk "/mock/" {| bound_self := 0; bound_name := "create" |} ["POST"]
    tags VNone
    (VDict [("requestBody", VDict [("required", VBool true)])])
    [VObj 1] kwargs.

(** ** deps.py: the dependency-injection helpers *)

(** How a parameter of a callable gets its value from the host framework:
    the current request (by its [Request] annotation), a nested dependency
    ([Depends(provider)] as default), or neither. *)
Inductive Injection : Type :=
  | FromRequest
  | Depends (provider : Value)
  | Plain.

Record Param : Type := {
  param_name : string;
  param_injection : Injection
}.

(** A callable, seen through [inspect.signature]. *)
Record Callable : Type := {
  parameters : list Param
}.

(** Modelled from the spec: [fastapi_rest_utils/deps.py] is not among the
    sources (only its test, [tests/test_deps.py], is).  Each helper wraps
    the provider into a function accepting the current request and
    declaring a nested dependency on the wrapped provider; the parameter
    names are those the test looks up. *)
Definition db_dep_injector (session_dependency : Value) : Callable :=
  {| parameters :=
       [ {| param_name := "request"; param_injection := FromRequest |};
         {| param_name := "db"; param_injection := Depends session_dependency |} ] |}.

(** Modelled from the spec: see [db_dep_injector]. *)
Definition auth_dep_injector (user_dependency : Value) : Callable :=
  {| parameters :=
       [ {| param_name := "request"; param_injection := FromRequest |};
         {| param_name := "user"; param_injection := Depends user_dependency |} ] |}.

(** [sig.parameters[name]], when the name is in the signature. *)
Definition parameter (f : Callable) (name : string) : option Param :=
  list_find (λ p, param_name p = name) (parameters f) ≫= λ ip, Some ip.2.

(** ** More calls on the viewset of the test suite *)

(** Overrides that repeat [path], that pass [dependencies=None], and that
    carry a [summary] beside the caller's dependencies. *)
Definition with_path : gmap string Value := {["path" := VStr "/other"]}.

Definition with_none_dependencies : gmap string Value :=
  {["dependencies" := VNone]}.

Definition with_summary : gmap string Value :=
  <["summary" := VStr "Mock"]> with_auth.

(** A host that refuses routes answering [POST]. *)
Definition reject_post (route : APIRoute.t) : option Exn :=
  if bool_decide ("POST" ∈ APIRoute.methods route)
  then Some (FrameworkError "POST is not served")
  else None.

(** The entry for [mock_list] (first descriptor) under the prefix [/mock],
    bound to the instance numbered [self]. *)
Definition mock_list_route (self : nat) (tags : option (list string))
    (dependencies : list Value) (kwargs : gmap string Value) : APIRoute.t :=
  APIRoute.mk "/mock/" {| bound_self := self; bound_name := "list" |} ["GET"]
    tags VNone VNone dependencies kwargs.

(** The viewset registered under [/mock], and again under [/again]. *)
Definition mock_call : M unit :=
  register_viewset leading_slash mock_viewset_with_routes "/mock" None with_auth.

Definition mock_call_twice : M unit :=
  register_viewset leading_slash mock_viewset_with_routes "/mock" None with_auth;;
  register_viewset leading_slash mock_viewset_with_routes "/again" (Some ["v2"]) ∅.

(** The keywords of the [add_api_route] call that a caller's [**kwargs] can
    repeat: [tags] is a parameter of [register_viewset] itself, and
    [dependencies] is popped before the call. *)
Definition forwarded_by_name : list string :=
  ["path"; "endpoint"; "methods"; "response_model"; "openapi_extra"].

(** A prefix without its leading slash: [leading_slash] refuses every
    route under it. *)
Definition bare_prefix : string := "mock".

(** * Properties *)

(** ** Keyword overrides *)

Lemma caller_dependencies_popped (kwargs : gmap string Value) :
  caller_dependencies (delete "dependencies" kwargs) = [].
Proof. unfold caller_dependencies. by rewrite lookup_delete_eq. Qed.

Lemma overrides_ok_popped (kwargs : gmap string Value) :
  overrides_ok kwargs = true → overrides_ok (delete "dependencies" kwargs) = true.
Proof.
  unfold overrides_ok. rewrite lookup_delete_eq, delete_delete_eq.
  intros [_ H]%andb_true_iff. by rewrite H.
Qed.

Lemma overrides_ok_pop (kwargs : gmap string Value) :
  overrides_ok kwargs = true →
  get (kwargs !! "dependencies") (VList []) = VList (caller_dependencies kwargs)
  ∧ existsb (has_key (delete "dependencies" kwargs)) explicit_keywords = false.
Proof.
  unfold overrides_ok, caller_dependencies.
  intros [Hdeps Hkeys]%andb_true_iff. apply negb_true_iff in Hkeys.
  split; [|done].
  destruct (kwargs !! "dependencies") as [[]|]; simpl in *; congruence.
Qed.

(** From the second iteration on, the loop runs on the popped overrides:
    what it adds for position [i] then is what the whole run adds for
    position [S i]. *)
Lemma route_of_popped viewset prefix tags (kwargs : gmap string Value) i rc :
  route_of viewset prefix tags (delete "dependencies" kwargs) i rc
  = route_of viewset prefix tags kwargs (S i) rc.
Proof.
  unfold route_of. rewrite caller_dependencies_popped, delete_delete_eq.
  by destruct i.
Qed.

Lemma imap_route_of_popped viewset prefix tags (kwargs : gmap string Value) rcs :
  imap (route_of viewset prefix tags (delete "dependencies" kwargs)) rcs
  = imap (route_of viewset prefix tags kwargs ∘ S) rcs.
Proof. apply imap_ext. intros i rc _. apply route_of_popped. Qed.

Section Registration.

Variable host_check : APIRoute.t → option Exn.

(** One iteration either raises and leaves the world as it found it, or
    appends the entry [route_of] describes and goes on with the popped
    overrides. *)
Lemma register_routes_cons viewset prefix tags rc rest
    (kwargs : gmap string Value) w :
  (∃ e, register_routes host_check viewset prefix tags (rc :: rest) kwargs w
        = (w, inl e))
  ∨ register_routes host_check viewset prefix tags (rc :: rest) kwargs w
    = register_routes host_check viewset prefix tags rest
        (delete "dependencies" kwargs)
        (with_routes w [route_of viewset prefix tags kwargs 0 rc]).
Proof.
  cbn [register_routes].
  unfold mbind, M_bind, getattr, pop, list_add, add_api_route, route_of,
    caller_dependencies, with_routes, mret, M_ret, raise.
  destruct (decide _) as [Hin|Hnin]; [|left; by eexists].
  destruct (kwargs !! "dependencies") as [[]|] eqn:Hdeps; cbn [get];
    try (left; by eexists);
    (destruct (existsb _ _); [left; by eexists|]);
    (destruct (host_check _); [left; by eexists|]); by right.
Qed.

(** The iteration goes through when the handler resolves and the host's
    primitive takes the call. *)
Lemma register_routes_cons_ok viewset prefix tags rc rest
    (kwargs : gmap string Value) w :
  RouteConfigDict.endpoint_name rc ∈ attributes (instance_class viewset) →
  overrides_ok kwargs = true →
  host_check (route_of viewset prefix tags kwargs 0 rc) = None →
  register_routes host_check viewset prefix tags (rc :: rest) kwargs w
  = register_routes host_check viewset prefix tags rest
      (delete "dependencies" kwargs)
      (with_routes w [route_of viewset prefix tags kwargs 0 rc]).
Proof.
  intros Hin [Hpop Hkeys]%overrides_ok_pop Hhost.
  cbn [register_routes].
  unfold mbind, M_bind, getattr, pop, list_add, add_api_route.
  rewrite decide_True by done. rewrite Hpop. cbn [mret M_ret].
  rewrite Hkeys. unfold route_of in Hhost.
  by rewrite Hhost.
Qed.

(** A handler that does not resolve stops the loop at once, with the
    exception [getattr] raised and the world untouched. *)
Lemma register_routes_cons_missing viewset prefix tags rc rest
    (kwargs : gmap string Value) w :
  RouteConfigDict.endpoint_name rc ∉ attributes (instance_class viewset) →
  register_routes host_check viewset prefix tags (rc :: rest) kwargs w
  = (w, inl (AttributeError (RouteConfigDict.endpoint_name rc))).
Proof.
  intros Hnin. cbn [register_routes]. unfold mbind, M_bind, getattr.
  by rewrite decide_False by done.
Qed.

Lemma with_routes_nil w : with_routes w [] = w.
Proof. destruct w. unfold with_routes. simpl. by rewrite List.app_nil_r. Qed.

Lemma with_routes_app w xs ys :
  with_routes (with_routes w xs) ys = with_routes w (xs ++ ys).
Proof. unfold with_routes. simpl. by rewrite <- List.app_assoc. Qed.

(** Every run, raising or not, has registered the descriptors of an
    initial segment of the sequence, in order, and nothing else; a run that
    returns has registered them all. *)
Lemma register_routes_run viewset prefix tags rcs (kwargs : gmap string Value) w :
  ∃ k out,
    k ≤ length rcs
    ∧ register_routes host_check viewset prefix tags rcs kwargs w
      = (with_routes w (imap (route_of viewset prefix tags kwargs) (take k rcs)),
         out)
    ∧ (out = inr () → k = length rcs).
Proof.
  revert kwargs w. induction rcs as [|rc rest IH]; intros kwargs w.
  - exists 0, (inr ()). by rewrite with_routes_nil.
  - destruct (register_routes_cons viewset prefix tags rc rest kwargs w)
      as [[e He]|Hgo].
    + exists 0, (inl e). rewrite He, with_routes_nil.
      split; [simpl; lia|]. by split.
    + destruct (IH (delete "dependencies" kwargs)
                  (with_routes w [route_of viewset prefix tags kwargs 0 rc]))
        as (k & out & Hk & Hrun & Hout).
      exists (S k), out. rewrite Hgo, Hrun, with_routes_app.
      rewrite imap_route_of_popped.
      split; [simpl; lia|]. split; [done|].
      intros ->%Hout. done.
Qed.

(** A run over descriptors that all go through, followed by [rest]. *)
Lemma register_routes_app viewset prefix tags pre rest
    (kwargs : gmap string Value) w :
  Forall (λ rc, RouteConfigDict.endpoint_name rc
                ∈ attributes (instance_class viewset)) pre →
  overrides_ok kwargs = true →
  Forall (λ r, host_check r = None)
    (imap (route_of viewset prefix tags kwargs) pre) →
  register_routes host_check viewset prefix tags (pre ++ rest) kwargs w
  = register_routes host_check viewset prefix tags rest
      (match pre with [] => kwargs | _ :: _ => delete "dependencies" kwargs end)
      (with_routes w (imap (route_of viewset prefix tags kwargs) pre)).
Proof.
  revert kwargs w. induction pre as [|rc pre IH]; intros kwargs w Hres Hok Hhost.
  - by rewrite with_routes_nil.
  - apply Forall_cons in Hres as [Hrc Hres].
    rewrite imap_cons in Hhost. apply Forall_cons in Hhost as [Hr Hhost].
    rewrite <- imap_route_of_popped in Hhost.
    cbn [app]. rewrite register_routes_cons_ok by done.
    rewrite IH by auto using overrides_ok_popped.
    rewrite with_routes_app, imap_route_of_popped, delete_delete_eq.
    by destruct pre.
Qed.

(** [register_viewset] constructs the instance, then runs the loop on it. *)
Lemma register_viewset_unfold cls prefix tags (kwargs : gmap string Value) w :
  register_viewset host_check cls prefix tags kwargs w
  = register_routes host_check (fresh_viewset cls w) prefix tags
      (cls_routes_config cls) kwargs
      {| routes := routes w; constructed := S (constructed w) |}.
Proof. reflexivity. Qed.

(** The same at the level of the call: the instance is the one constructed
    first, and the table grows by the entries of an initial segment. *)
Lemma register_viewset_run cls prefix tags (kwargs : gmap string Value) w :
  ∃ k out,
    k ≤ length (cls_routes_config cls)
    ∧ register_viewset host_check cls prefix tags kwargs w
      = ({| routes := routes w
                      ++ imap (route_of (fresh_viewset cls w) prefix tags kwargs)
                           (take k (cls_routes_config cls));
            constructed := S (constructed w) |}, out)
    ∧ (out = inr () → k = length (cls_routes_config cls)).
Proof.
  rewrite register_viewset_unfold.
  destruct (register_routes_run (fresh_viewset cls w) prefix tags
              (cls_routes_config cls) kwargs
              {| routes := routes w; constructed := S (constructed w) |})
    as (k & out & Hk & Hrun & Hout).
  exists k, out. by rewrite Hrun.
Qed.

(** Each entry a call adds is the one [route_of] builds from the
    descriptor at the same position. *)
Lemma added_lookup cls prefix tags (kwargs : gmap string Value) w i r :
  added w (register_viewset host_check cls prefix tags kwargs w).1 !! i = Some r →
  ∃ rc, cls_routes_config cls !! i = Some rc
        ∧ r = route_of (fresh_viewset cls w) prefix tags kwargs i rc.
Proof.
  destruct (register_viewset_run cls prefix tags kwargs w)
    as (k & out & _ & -> & _).
  unfold added. cbn [fst routes]. rewrite drop_app_length.
  intros (rc & [Hrc _]%lookup_take_Some & ->)%list_lookup_imap_Some. eauto.
Qed.

(** The loop never looks at the fields [read_fields] blanks. *)
Lemma register_routes_read_fields viewset viewset' prefix tags rcs
    (kwargs : gmap string Value) w :
  instance_id viewset' = instance_id viewset →
  attributes (instance_class viewset') = attributes (instance_class viewset) →
  register_routes host_check viewset' prefix tags (read_fields <$> rcs) kwargs w
  = register_routes host_check viewset prefix tags rcs kwargs w.
Proof.
  intros Hid Hattrs. revert kwargs w.
  induction rcs as [|rc rest IH]; intros kwargs w; [done|].
  cbn [fmap list_fmap register_routes].
  unfold mbind, M_bind, getattr, pop, list_add, add_api_route, mret, M_ret, raise.
  rewrite Hid, Hattrs. cbn [read_fields RouteConfigDict.endpoint_name
    RouteConfigDict.path RouteConfigDict.method RouteConfigDict.response_model
    RouteConfigDict.openapi_extra RouteConfigDict.dependencies].
  destruct (decide _); [|done].
  destruct (kwargs !! "dependencies") as [[]|]; cbn [get]; try done;
    (destruct (existsb _ _); [done|]); (destruct (host_check _); [done|]);
    apply IH.
Qed.

End Registration.

(** ** The registration loop, claim by claim *)

Section Claims.

Variable host_check : APIRoute.t → option Exn.

(** C2.  For a viewset class whose [routes_config] returns N descriptors
    whose named handlers all resolve, a call whose keyword overrides can be
    forwarded (as soon as there is a descriptor to forward them for) and
    whose routes the host accepts returns normally and leaves exactly N
    more entries in the router's route table. *)
Theorem C2_register_viewset_adds_N_routes cls prefix tags
    (kwargs : gmap string Value) w :
  Forall (λ rc, RouteConfigDict.endpoint_name rc ∈ attributes cls)
    (cls_routes_config cls) →
  (cls_routes_config cls ≠ [] → overrides_ok kwargs = true) →
  Forall (λ r, host_check r = None)
    (imap (route_of (fresh_viewset cls w) prefix tags kwargs)
       (cls_routes_config cls)) →
  (register_viewset host_check cls prefix tags kwargs w).2 = inr ()
  ∧ length (routes (register_viewset host_check cls prefix tags kwargs w).1)
    = length (routes w) + length (cls_routes_config cls).
Proof.
  intros Hres Hok Hhost. rewrite register_viewset_unfold.
  destruct (cls_routes_config cls) as [|rc rest] eqn:Hcfg.
  - cbn [register_routes mret M_ret fst snd routes length]. split; [done|lia].
  - pose proof (register_routes_app host_check (fresh_viewset cls w) prefix
                  tags (rc :: rest) [] kwargs
                  {| routes := routes w; constructed := S (constructed w) |}
                  Hres (Hok ltac:(done)) Hhost) as Hrun.
    rewrite List.app_nil_r in Hrun. rewrite Hrun.
    cbn [register_routes mret M_ret with_routes fst snd routes].
    by rewrite length_app, length_imap.
Qed.

(** C3.  The path of the entry registered for a descriptor is the prefix
    followed by the descriptor's [path], character for character: the i-th
    entry a call adds carries [prefix +:+ path] of the i-th descriptor. *)
Theorem C3_registered_path_is_prefix_then_path cls prefix tags
    (kwargs : gmap string Value) w i r :
  added w (register_viewset host_check cls prefix tags kwargs w).1 !! i = Some r →
  ∃ rc, cls_routes_config cls !! i = Some rc
        ∧ APIRoute.path r = prefix +:+ RouteConfigDict.path rc.
Proof. intros (rc & Hrc & ->)%added_lookup. eauto. Qed.

(** C4.  When [rc] is the first descriptor that names a handler which is
    not an attribute of the instance, and the descriptors [pre] before it
    were registered (their routes accepted by the host and, if there is
    any, the keyword overrides fit to forward), the call ends with the very
    [AttributeError] that [getattr] raised for [rc]; the entries added for
    [pre] are in the route table, after those that were there before:
    nothing is rolled back, nothing is tried again.  Nothing is asked of
    [rc] itself or of the descriptors after it. *)
Theorem C4_missing_handler_raises_and_keeps_routes cls prefix tags
    (kwargs : gmap string Value) w pre rc post :
  cls_routes_config cls = pre ++ rc :: post →
  Forall (λ rc', RouteConfigDict.endpoint_name rc' ∈ attributes cls) pre →
  RouteConfigDict.endpoint_name rc ∉ attributes cls →
  (pre ≠ [] → overrides_ok kwargs = true) →
  Forall (λ r, host_check r = None)
    (imap (route_of (fresh_viewset cls w) prefix tags kwargs) pre) →
  register_viewset host_check cls prefix tags kwargs w
  = ({| routes := routes w
                  ++ imap (route_of (fresh_viewset cls w) prefix tags kwargs) pre;
        constructed := S (constructed w) |},
     inl (AttributeError (RouteConfigDict.endpoint_name rc)))
  ∧ length (added w (register_viewset host_check cls prefix tags kwargs w).1)
    = length pre.
Proof.
  intros Hcfg Hres Hmiss Hok Hhost. rewrite register_viewset_unfold, Hcfg.
  unfold added. destruct pre as [|rc0 pre].
  - cbn [app imap]. rewrite register_routes_cons_missing by done.
    cbn [fst routes length]. by rewrite List.app_nil_r, drop_all.
  - rewrite register_routes_app by auto.
    rewrite register_routes_cons_missing by done.
    cbn [with_routes fst snd routes].
    by rewrite drop_app_length, length_imap.
Qed.

(** C5.  The OpenAPI extras of a registered entry are the descriptor's
    [openapi_extra] mapping itself when it has one, and [None] when the
    descriptor has no such key. *)
Theorem C5_openapi_extra_forwarded_unmodified cls prefix tags
    (kwargs : gmap string Value) w i r rc :
  added w (register_viewset host_check cls prefix tags kwargs w).1 !! i = Some r →
  cls_routes_config cls !! i = Some rc →
  (∀ extra, RouteConfigDict.openapi_extra rc = Some extra →
            APIRoute.openapi_extra r = extra)
  ∧ (RouteConfigDict.openapi_extra rc = None → APIRoute.openapi_extra r = VNone).
Proof.
  intros (rc' & Hrc' & ->)%added_lookup Hrc.
  assert (rc' = rc) as -> by congruence.
  cbn [route_of APIRoute.openapi_extra]. by split; [intros extra|]; intros ->.
Qed.

(** C6.  The loop takes the descriptors in the order of the sequence
    [routes_config] returned: what a call appends to the route table is,
    position by position, the entries of an initial segment of that
    sequence (all of it when the call returns), after the entries that
    were already there. *)
Theorem C6_routes_added_in_descriptor_order cls prefix tags
    (kwargs : gmap string Value) w :
  ∃ k,
    k ≤ length (cls_routes_config cls)
    ∧ routes (register_viewset host_check cls prefix tags kwargs w).1
      = routes w ++ imap (route_of (fresh_viewset cls w) prefix tags kwargs)
                      (take k (cls_routes_config cls))
    ∧ (bound_name ∘ APIRoute.endpoint)
        <$> added w (register_viewset host_check cls prefix tags kwargs w).1
      = RouteConfigDict.endpoint_name <$> take k (cls_routes_config cls)
    ∧ ((register_viewset host_check cls prefix tags kwargs w).2 = inr () →
       k = length (cls_routes_config cls)).
Proof.
  destruct (register_viewset_run host_check cls prefix tags kwargs w)
    as (k & out & Hk & -> & Hout).
  exists k. unfold added. cbn [fst snd routes]. rewrite drop_app_length.
  repeat split; [done| |done].
  rewrite fmap_imap. generalize (take k (cls_routes_config cls)). intros l.
  rewrite <- (imap_const RouteConfigDict.endpoint_name). by apply imap_ext.
Qed.

(** C8.  The caller's [dependencies] list is popped by the first iteration
    and is gone for the later ones: the entry added for the first
    descriptor carries the descriptor's dependencies followed by the
    caller's, every later entry only its descriptor's own. *)
Theorem C8_caller_dependencies_reach_first_route_only cls prefix tags
    (kwargs : gmap string Value) deps w i r rc :
  kwargs !! "dependencies" = Some (VList deps) →
  added w (register_viewset host_check cls prefix tags kwargs w).1 !! i = Some r →
  cls_routes_config cls !! i = Some rc →
  (i = 0 → APIRoute.dependencies r
           = get (RouteConfigDict.dependencies rc) [] ++ deps)
  ∧ (0 < i → APIRoute.dependencies r
             = get (RouteConfigDict.dependencies rc) []).
Proof.
  intros Hdeps (rc' & Hrc' & ->)%added_lookup Hrc.
  assert (rc' = rc) as -> by congruence.
  cbn [route_of APIRoute.dependencies]. unfold caller_dependencies.
  rewrite Hdeps. split.
  - by intros ->.
  - intros Hi. destruct i; [lia|]. apply List.app_nil_r.
Qed.

(** C9.  A call constructs exactly one viewset instance, and the endpoint
    of every entry it adds is an attribute resolved on that instance. *)
Theorem C9_one_instance_shared_by_all_routes cls prefix tags
    (kwargs : gmap string Value) w :
  constructed (register_viewset host_check cls prefix tags kwargs w).1
    = S (constructed w)
  ∧ Forall (λ r, bound_self (APIRoute.endpoint r)
                 = instance_id (fresh_viewset cls w))
      (added w (register_viewset host_check cls prefix tags kwargs w).1).
Proof.
  split.
  - by destruct (register_viewset_run host_check cls prefix tags kwargs w)
      as (k & out & _ & -> & _).
  - apply Forall_lookup. by intros i r (rc & _ & ->)%added_lookup.
Qed.

(** C10.  The loop reads [path], [method], [endpoint_name],
    [response_model], [openapi_extra] and [dependencies] only: blanking
    [tags], [name], [summary], [description], [deprecated],
    [include_in_schema] and [kwargs] in every descriptor changes nothing
    in the outcome or the route table, and every entry added carries the
    [tags] argument of the call. *)
Theorem C10_unread_descriptor_fields_ignored cls prefix tags
    (kwargs : gmap string Value) w :
  register_viewset host_check
    {| attributes := attributes cls;
       cls_routes_config := read_fields <$> cls_routes_config cls |}
    prefix tags kwargs w
  = register_viewset host_check cls prefix tags kwargs w
  ∧ Forall (λ r, APIRoute.tags r = tags)
      (added w (register_viewset host_check cls prefix tags kwargs w).1).
Proof.
  split.
  - rewrite !register_viewset_unfold. by apply register_routes_read_fields.
  - apply Forall_lookup. by intros i r (rc & _ & ->)%added_lookup.
Qed.

End Claims.

(** C1 (the code falls short of it).  On the two-descriptor viewset of the
    test suite, called with [dependencies=[auth]], the entry for the first
    descriptor gets its own dependencies followed by the caller's, but the
    entry for the second gets [VObj 1] alone, one dependency where the
    claim counts two: the [pop] of the first iteration emptied the
    overrides. *)
Theorem C1_second_route_lacks_caller_dependencies :
  let w' := (register_viewset accept_all mock_viewset_with_routes "/mock" None
               with_auth empty_world).1 in
  APIRoute.dependencies <$> routes w' = [[auth]; [VObj 1]]
  ∧ get (RouteConfigDict.dependencies mock_create) [] ++ [auth] = [VObj 1; auth]
  ∧ ∃ r, routes w' !! 1 = Some r
         ∧ length (APIRoute.dependencies r)
           ≠ length (get (RouteConfigDict.dependencies mock_create) [])
             + length [auth].
Proof.
  split; [by vm_compute|]. split; [done|].
  eexists. split; [by vm_compute|]. cbn. lia.
Qed.

(** ** The dependency-injection helpers *)

(** C7.  Whatever provider it is given, the callable each helper produces
    has a parameter [request] that receives the current request, and a
    parameter ([db] for the session helper, [user] for the auth helper)
    declaring a nested dependency on that provider. *)
Theorem C7_injectors_expose_request_and_nested_dependency (provider : Value) :
  (parameter (db_dep_injector provider) "request"
     = Some {| param_name := "request"; param_injection := FromRequest |}
   ∧ parameter (db_dep_injector provider) "db"
     = Some {| param_name := "db"; param_injection := Depends provider |})
  ∧ (parameter (auth_dep_injector provider) "request"
       = Some {| param_name := "request"; param_injection := FromRequest |}
     ∧ parameter (auth_dep_injector provider) "user"
       = Some {| param_name := "user"; param_injection := Depends provider |}).
Proof. by vm_compute. Qed.

(** ** The claims at work on the viewset of the test suite *)

Lemma mock_handlers_resolve :
  Forall (λ rc, RouteConfigDict.endpoint_name rc
                ∈ attributes mock_viewset_with_routes) mock_routes.
Proof. repeat constructor; by vm_compute. Defined.

Lemma C2_witness :
  Forall (λ rc, RouteConfigDict.endpoint_name rc
                ∈ attributes mock_viewset_with_routes)
    (cls_routes_config mock_viewset_with_routes)
  ∧ (cls_routes_config mock_viewset_with_routes ≠ [] →
     overrides_ok with_auth = true)
  ∧ Forall (λ r, leading_slash r = None)
      (imap (route_of (fresh_viewset mock_viewset_with_routes empty_world)
               "/mock" (Some ["mock"]) with_auth)
         (cls_routes_config mock_viewset_with_routes))
  ∧ (register_viewset leading_slash mock_viewset_with_routes "/mock"
       (Some ["mock"]) with_auth empty_world).2 = inr ()
  ∧ length (routes (register_viewset leading_slash mock_viewset_with_routes
                      "/mock" (Some ["mock"]) with_auth empty_world).1)
    = length (routes empty_world)
      + length (cls_routes_config mock_viewset_with_routes).
Proof.
  split; [exact mock_handlers_resolve|].
  split; [intros _; by vm_compute|].
  split; [repeat constructor|].
  apply (C2_register_viewset_adds_N_routes leading_slash
           mock_viewset_with_routes "/mock" (Some ["mock"]) with_auth
           empty_world).
  - exact mock_handlers_resolve.
  - intros _. by vm_compute.
  - repeat constructor.
Defined.

(** Every handler of the mock viewset resolves, and still a call adds
    fewer than its two routes: none when an override repeats [path] or
    when [dependencies] is [None] (a [TypeError] in the first iteration),
    one when the host refuses the second route. *)
Lemma C2_counterexample :
  Forall (λ rc, RouteConfigDict.endpoint_name rc
                ∈ attributes mock_viewset_with_routes)
    (cls_routes_config mock_viewset_with_routes)
  ∧ register_viewset accept_all mock_viewset_with_routes "/mock" None
      with_path empty_world
    = ({| routes := []; constructed := 1 |},
       inl (TypeError "got multiple values for keyword argument"))
  ∧ length (routes (register_viewset accept_all mock_viewset_with_routes
                      "/mock" None with_path empty_world).1)
    ≠ length (routes empty_world)
      + length (cls_routes_config mock_viewset_with_routes)
  ∧ length (routes (register_viewset accept_all mock_viewset_with_routes
                      "/mock" None with_none_dependencies empty_world).1)
    ≠ length (routes empty_world)
      + length (cls_routes_config mock_viewset_with_routes)
  ∧ length (routes (register_viewset reject_post mock_viewset_with_routes
                      "/mock" None ∅ empty_world).1)
    ≠ length (routes empty_world)
      + length (cls_routes_config mock_viewset_with_routes).
Proof.
  split; [exact mock_handlers_resolve|].
  split; [by vm_compute|].
  repeat split; vm_compute; lia.
Qed.

Lemma C3_witness :
  added empty_world
    (register_viewset leading_slash mock_viewset_with_routes "/mock" None ∅
       empty_world).1 !! 1
  = Some (mock_create_route None ∅)
  ∧ ∃ rc, cls_routes_config mock_viewset_with_routes !! 1 = Some rc
          ∧ APIRoute.path (mock_create_route None ∅)
            = "/mock" +:+ RouteConfigDict.path rc.
Proof.
  split; [by vm_compute|].
  apply (C3_registered_path_is_prefix_then_path leading_slash
           mock_viewset_with_routes "/mock" None ∅ empty_world 1).
  by vm_compute.
Defined.

Lemma C4_witness :
  cls_routes_config broken_viewset = [mock_list] ++ mock_create :: []
  ∧ Forall (λ rc', RouteConfigDict.endpoint_name rc' ∈ attributes broken_viewset)
      [mock_list]
  ∧ (RouteConfigDict.endpoint_name mock_create ∉ attributes broken_viewset)
  ∧ ([mock_list] ≠ [] → overrides_ok with_auth = true)
  ∧ Forall (λ r, reject_post r = None)
      (imap (route_of (fresh_viewset broken_viewset empty_world) "/mock" None
               with_auth) [mock_list])
  ∧ register_viewset reject_post broken_viewset "/mock" None with_auth
      empty_world
    = ({| routes := routes empty_world
                    ++ imap (route_of (fresh_viewset broken_viewset empty_world)
                               "/mock" None with_auth) [mock_list];
          constructed := S (constructed empty_world) |},
       inl (AttributeError (RouteConfigDict.endpoint_name mock_create)))
  ∧ length (added empty_world
              (register_viewset reject_post broken_viewset "/mock" None
                 with_auth empty_world).1)
    = length [mock_list].
Proof.
  assert (Hres : Forall (λ rc', RouteConfigDict.endpoint_name rc'
                                ∈ attributes broken_viewset) [mock_list])
    by (repeat constructor; by vm_compute).
  assert (Hmiss : RouteConfigDict.endpoint_name mock_create
                  ∉ attributes broken_viewset)
    by (apply (bool_decide_unpack _); by vm_compute).
  split; [done|]. split; [exact Hres|]. split; [exact Hmiss|].
  split; [intros _; by vm_compute|]. split; [repeat constructor|].
  apply (C4_missing_handler_raises_and_keeps_routes reject_post broken_viewset
           "/mock" None with_auth empty_world [mock_list] mock_create []).
  - done.
  - exact Hres.
  - exact Hmiss.
  - intros _. by vm_compute.
  - repeat constructor.
Defined.

(** The second descriptor of [broken_viewset] names a missing handler, and
    still the call does not end with an [AttributeError] when something
    else goes wrong for the first descriptor: an override that repeats
    [path], or a route the host refuses. *)
Lemma C4_counterexample :
  Exists (λ rc, RouteConfigDict.endpoint_name rc ∉ attributes broken_viewset)
    (cls_routes_config broken_viewset)
  ∧ (register_viewset accept_all broken_viewset "/mock" None with_path
       empty_world).2
    = inl (TypeError "got multiple values for keyword argument")
  ∧ (∀ name, (register_viewset accept_all broken_viewset "/mock" None
                with_path empty_world).2 ≠ inl (AttributeError name))
  ∧ (register_viewset leading_slash broken_viewset bare_prefix None ∅
       empty_world).2
    = inl (FrameworkError "Routed paths must start with '/'")
  ∧ (∀ name, (register_viewset leading_slash broken_viewset bare_prefix None ∅
                empty_world).2 ≠ inl (AttributeError name)).
Proof.
  split.
  { apply Exists_cons_tl, Exists_cons_hd.
    apply (bool_decide_unpack _). by vm_compute. }
  split; [by vm_compute|]. split; [intros name; by vm_compute|].
  split; [by vm_compute|]. intros name; by vm_compute.
Qed.

Lemma C5_witness :
  added empty_world
    (register_viewset accept_all mock_viewset_with_routes "/mock" None ∅
       empty_world).1 !! 1
  = Some (mock_create_route None ∅)
  ∧ cls_routes_config mock_viewset_with_routes !! 1 = Some mock_create
  ∧ (∀ extra, RouteConfigDict.openapi_extra mock_create = Some extra →
              APIRoute.openapi_extra (mock_create_route None ∅) = extra)
  ∧ (RouteConfigDict.openapi_extra mock_create = None →
     APIRoute.openapi_extra (mock_create_route None ∅) = VNone).
Proof.
  split; [by vm_compute|]. split; [done|].
  apply (C5_openapi_extra_forwarded_unmodified accept_all
           mock_viewset_with_routes "/mock" None ∅ empty_world 1).
  - by vm_compute.
  - done.
Defined.

Lemma C8_witness :
  with_auth !! "dependencies" = Some (VList [auth])
  ∧ added empty_world
      (register_viewset accept_all mock_viewset_with_routes "/mock" None
         with_auth empty_world).1 !! 1
    = Some (mock_create_route None ∅)
  ∧ cls_routes_config mock_viewset_with_routes !! 1 = Some mock_create
  ∧ (1 = 0 → APIRoute.dependencies (mock_create_route None ∅)
             = get (RouteConfigDict.dependencies mock_create) [] ++ [auth])
  ∧ (0 < 1 → APIRoute.dependencies (mock_create_route None ∅)
             = get (RouteConfigDict.dependencies mock_create) []).
Proof.
  split; [by vm_compute|]. split; [by vm_compute|]. split; [done|].
  apply (C8_caller_dependencies_reach_first_route_only accept_all
           mock_viewset_with_routes "/mock" None with_auth [auth] empty_world 1).
  - by vm_compute.
  - by vm_compute.
  - done.
Defined.

(** * Further properties of the registration loop *)

Section Outcomes.

Variable host_check : APIRoute.t → option Exn.

(** An iteration that lets the loop return has resolved its handler, found
    the overrides fit to forward and the host willing. *)
Lemma register_routes_cons_inv viewset prefix tags rc rest
    (kwargs : gmap string Value) w w' :
  register_routes host_check viewset prefix tags (rc :: rest) kwargs w
  = (w', inr ()) →
  RouteConfigDict.endpoint_name rc ∈ attributes (instance_class viewset)
  ∧ overrides_ok kwargs = true
  ∧ host_check (route_of viewset prefix tags kwargs 0 rc) = None
  ∧ register_routes host_check viewset prefix tags rest
      (delete "dependencies" kwargs)
      (with_routes w [route_of viewset prefix tags kwargs 0 rc])
    = (w', inr ()).
Proof.
  cbn [register_routes].
  unfold mbind, M_bind, getattr, pop, list_add, add_api_route, route_of,
    overrides_ok, caller_dependencies, with_routes, mret, M_ret, raise.
  destruct (decide _) as [Hin|Hnin]; [|done].
  destruct (kwargs !! "dependencies") as [[]|] eqn:Hdeps; cbn [get]; try done;
    (destruct (existsb _ _) eqn:Hkeys; [done|]);
    (destruct (host_check _) eqn:Hhost; [done|]); by intros Hrun.
Qed.

(** An iteration the host refuses ends the loop with the host's exception
    and adds nothing. *)
Lemma register_routes_cons_rejected viewset prefix tags rc rest
    (kwargs : gmap string Value) w e :
  RouteConfigDict.endpoint_name rc ∈ attributes (instance_class viewset) →
  overrides_ok kwargs = true →
  host_check (route_of viewset prefix tags kwargs 0 rc) = Some e →
  register_routes host_check viewset prefix tags (rc :: rest) kwargs w
  = (w, inl e).
Proof.
  intros Hin [Hpop Hkeys]%overrides_ok_pop Hhost.
  cbn [register_routes].
  unfold mbind, M_bind, getattr, pop, list_add, add_api_route.
  rewrite decide_True by done. rewrite Hpop. cbn [mret M_ret].
  rewrite Hkeys. unfold route_of in Hhost. by rewrite Hhost.
Qed.

(** An iteration whose keyword overrides cannot be forwarded ends the loop
    with a [TypeError] and adds nothing, whatever the host would say. *)
Lemma register_routes_cons_bad_overrides viewset prefix tags rc rest
    (kwargs : gmap string Value) w :
  RouteConfigDict.endpoint_name rc ∈ attributes (instance_class viewset) →
  overrides_ok kwargs = false →
  ∃ msg, register_routes host_check viewset prefix tags (rc :: rest) kwargs w
         = (w, inl (TypeError msg)).
Proof.
  intros Hin. cbn [register_routes].
  unfold mbind, M_bind, getattr, pop, list_add, add_api_route, overrides_ok,
    mret, M_ret, raise.
  rewrite decide_True by done.
  destruct (kwargs !! "dependencies") as [[]|]; cbn [get andb];
    try (intros _; by eexists);
    intros ->%negb_false_iff; by eexists.
Qed.


(** What a returning loop tells about its input. *)
Lemma register_routes_returns viewset prefix tags rcs
    (kwargs : gmap string Value) w w' :
  register_routes host_check viewset prefix tags rcs kwargs w = (w', inr ()) →
  Forall (λ rc, RouteConfigDict.endpoint_name rc
                ∈ attributes (instance_class viewset)) rcs
  ∧ (rcs ≠ [] → overrides_ok kwargs = true)
  ∧ Forall (λ r, host_check r = None)
      (imap (route_of viewset prefix tags kwargs) rcs).
Proof.
  revert kwargs w. induction rcs as [|rc rest IH]; intros kwargs w Hrun.
  - by repeat split.
  - apply register_routes_cons_inv in Hrun as (Hin & Hok & Hhost & Hrest).
    apply IH in Hrest as (Hres & _ & Hhosts).
    rewrite imap_route_of_popped in Hhosts.
    repeat split; [by constructor|done|]. rewrite imap_cons. by constructor.
Qed.

(** The entry for a descriptor past the first does not depend on how far
    past. *)
Lemma route_of_later viewset prefix tags (kwargs : gmap string Value) i j rc :
  route_of viewset prefix tags kwargs (S i) rc
  = route_of viewset prefix tags kwargs (S j) rc.
Proof. reflexivity. Qed.

End Outcomes.

Lemma forwarded_by_name_collides (kwargs : gmap string Value) (k : string) :
  k ∈ forwarded_by_name → is_Some (kwargs !! k) →
  existsb (has_key (delete "dependencies" kwargs)) explicit_keywords = true.
Proof.
  intros Hk [v Hv]. apply existsb_exists. exists k.
  unfold forwarded_by_name in Hk. unfold has_key.
  repeat (apply elem_of_cons in Hk as [->|Hk]);
    try (rewrite lookup_delete_ne, Hv by done; split; [|done];
         apply list_elem_of_In; unfold explicit_keywords;
         repeat first [apply list_elem_of_here | apply list_elem_of_further]).
  by apply not_elem_of_nil in Hk.
Qed.

Lemma overrides_dependencies_not_list (kwargs : gmap string Value) (v : Value) :
  kwargs !! "dependencies" = Some v → (∀ xs, v ≠ VList xs) →
  overrides_ok kwargs = false.
Proof.
  intros Hv Hlist. unfold overrides_ok. rewrite Hv.
  destruct v; try done. by destruct (Hlist xs).
Qed.

Section Extras.

Variable host_check : APIRoute.t → option Exn.

(** X1.  A call returns normally exactly when every descriptor's handler
    resolves, the host accepts the entry of every descriptor and, unless
    there is no descriptor at all, the keyword overrides can be forwarded.
    With no descriptor the overrides are never looked at. *)
Theorem X1_returns_iff_every_descriptor_goes_through cls prefix tags
    (kwargs : gmap string Value) w :
  (register_viewset host_check cls prefix tags kwargs w).2 = inr ()
  ↔ Forall (λ rc, RouteConfigDict.endpoint_name rc ∈ attributes cls)
      (cls_routes_config cls)
    ∧ (cls_routes_config cls ≠ [] → overrides_ok kwargs = true)
    ∧ Forall (λ r, host_check r = None)
        (imap (route_of (fresh_viewset cls w) prefix tags kwargs)
           (cls_routes_config cls)).
Proof.
  rewrite register_viewset_unfold. split.
  - destruct (register_routes _ _ _ _ _ _ _) as [w' out] eqn:Hrun.
    cbn [snd]. intros ->.
    by apply register_routes_returns in Hrun.
  - intros (Hres & Hok & Hhost).
    destruct (cls_routes_config cls) as [|rc rest] eqn:Hcfg; [done|].
    pose proof (register_routes_app host_check (fresh_viewset cls w) prefix
                  tags (rc :: rest) [] kwargs
                  {| routes := routes w; constructed := S (constructed w) |}
                  Hres (Hok ltac:(done)) Hhost) as Hrun.
    rewrite List.app_nil_r in Hrun. by rewrite Hrun.
Qed.

(** X2.  Keyword overrides that repeat [path], [endpoint], [methods],
    [response_model] or [openapi_extra], with [dependencies] absent or a
    list so that the concatenation goes through, make the first call of
    [add_api_route] a [TypeError] for the repeated keyword: no entry is
    added, whatever the host would accept. *)
Theorem X2_repeated_keyword_is_type_error cls prefix tags
    (kwargs : gmap string Value) w rc rest k :
  cls_routes_config cls = rc :: rest →
  RouteConfigDict.endpoint_name rc ∈ attributes cls →
  k ∈ forwarded_by_name → is_Some (kwargs !! k) →
  kwargs !! "dependencies" = None
  ∨ (∃ deps, kwargs !! "dependencies" = Some (VList deps)) →
  register_viewset host_check cls prefix tags kwargs w
  = ({| routes := routes w; constructed := S (constructed w) |},
     inl (TypeError "got multiple values for keyword argument")).
Proof.
  intros Hcfg Hin Hk Hsome Hdeps. rewrite register_viewset_unfold, Hcfg.
  pose proof (forwarded_by_name_collides kwargs k Hk Hsome) as Hkeys.
  cbn [register_routes].
  unfold mbind, M_bind, getattr, pop, list_add, add_api_route, mret, M_ret.
  cbn [fresh_viewset instance_class]. rewrite decide_True by done.
  destruct Hdeps as [->|[deps ->]]; cbn [get]; by rewrite Hkeys.
Qed.

(** X3.  A [dependencies] override that is not a list ([None], say) makes
    the first iteration raise a [TypeError] at the concatenation: no entry
    is added. *)
Theorem X3_dependencies_not_a_list_is_type_error cls prefix tags
    (kwargs : gmap string Value) w rc rest v :
  cls_routes_config cls = rc :: rest →
  RouteConfigDict.endpoint_name rc ∈ attributes cls →
  kwargs !! "dependencies" = Some v → (∀ xs, v ≠ VList xs) →
  ∃ msg, register_viewset host_check cls prefix tags kwargs w
         = ({| routes := routes w; constructed := S (constructed w) |},
            inl (TypeError msg)).
Proof.
  intros Hcfg Hin Hv Hlist. rewrite register_viewset_unfold, Hcfg.
  apply register_routes_cons_bad_overrides; [done|].
  by apply overrides_dependencies_not_list with v.
Qed.

(** X4.  When the host refuses the entry of the descriptor [rc] with the
    exception [e], after the descriptors [pre] went through, the call ends
    with [e] itself and the entries added for [pre] stay in the route
    table. *)
Theorem X4_host_exception_propagates_and_keeps_routes cls prefix tags
    (kwargs : gmap string Value) w pre rc post e :
  cls_routes_config cls = pre ++ rc :: post →
  Forall (λ rc', RouteConfigDict.endpoint_name rc' ∈ attributes cls) pre →
  RouteConfigDict.endpoint_name rc ∈ attributes cls →
  overrides_ok kwargs = true →
  Forall (λ r, host_check r = None)
    (imap (route_of (fresh_viewset cls w) prefix tags kwargs) pre) →
  host_check (route_of (fresh_viewset cls w) prefix tags kwargs (length pre) rc)
    = Some e →
  register_viewset host_check cls prefix tags kwargs w
  = ({| routes := routes w
                  ++ imap (route_of (fresh_viewset cls w) prefix tags kwargs) pre;
        constructed := S (constructed w) |},
     inl e).
Proof.
  intros Hcfg Hres Hin Hok Hhost He. rewrite register_viewset_unfold, Hcfg.
  rewrite register_routes_app by done.
  rewrite register_routes_cons_rejected with (e := e); [done|done| |].
  - destruct pre; [done|]. by apply overrides_ok_popped.
  - destruct pre as [|rc' pre]; [done|].
    rewrite route_of_popped. by rewrite (route_of_later _ _ _ _ 0 (length pre)).
Qed.

(** X5.  Every entry a call adds carries the keyword overrides of the call
    less [dependencies]: that key is never forwarded among them, every
    other override reaches every entry unchanged. *)
Theorem X5_other_overrides_reach_every_route cls prefix tags
    (kwargs : gmap string Value) w i r :
  added w (register_viewset host_check cls prefix tags kwargs w).1 !! i = Some r →
  APIRoute.kwargs r !! "dependencies" = None
  ∧ ∀ k, k ≠ "dependencies" → APIRoute.kwargs r !! k = kwargs !! k.
Proof.
  intros (rc & _ & ->)%added_lookup. cbn [route_of APIRoute.kwargs].
  split; [apply lookup_delete_eq|]. intros k Hk. by apply lookup_delete_ne.
Qed.

(** X6.  The entry added for a descriptor answers exactly one method, the
    descriptor's [method]; its endpoint is the attribute named by
    [endpoint_name]; its response model is the descriptor's, [None] when
    the descriptor has none. *)
Theorem X6_method_endpoint_and_response_model cls prefix tags
    (kwargs : gmap string Value) w i r rc :
  added w (register_viewset host_check cls prefix tags kwargs w).1 !! i = Some r →
  cls_routes_config cls !! i = Some rc →
  APIRoute.methods r = [RouteConfigDict.method rc]
  ∧ bound_name (APIRoute.endpoint r) = RouteConfigDict.endpoint_name rc
  ∧ APIRoute.response_model r = get (RouteConfigDict.response_model rc) VNone.
Proof.
  intros (rc' & Hrc' & ->)%added_lookup Hrc.
  by assert (rc' = rc) as -> by congruence.
Qed.

(** X7.  Two calls in a row: the entries of the second come after those of
    the first, and each call binds its entries to an instance of its own,
    so entries of different calls never share an instance. *)
Theorem X7_two_calls_use_two_instances cls1 prefix1 tags1
    (kwargs1 : gmap string Value) cls2 prefix2 tags2
    (kwargs2 : gmap string Value) w :
  let r1 := register_viewset host_check cls1 prefix1 tags1 kwargs1 w in
  let r2 := (register_viewset host_check cls1 prefix1 tags1 kwargs1;;
             register_viewset host_check cls2 prefix2 tags2 kwargs2) w in
  r1.2 = inr () →
  routes r2.1 = routes w ++ added w r1.1 ++ added r1.1 r2.1
  ∧ constructed r2.1 = S (S (constructed w))
  ∧ Forall (λ r, bound_self (APIRoute.endpoint r) = constructed w)
      (added w r1.1)
  ∧ Forall (λ r, bound_self (APIRoute.endpoint r) = S (constructed w))
      (added r1.1 r2.1).
Proof.
  intros r1 r2 Hret. subst r2. unfold mbind, M_bind. fold r1.
  destruct r1 as [w1 out1] eqn:Hr1. cbn [snd] in Hret. subst out1.
  cbn [fst]. subst r1.
  destruct (register_viewset_run host_check cls1 prefix1 tags1 kwargs1 w)
    as (k1 & out1 & _ & Hrun1 & _).
  rewrite Hr1 in Hrun1. injection Hrun1 as -> _.
  destruct (register_viewset_run host_check cls2 prefix2 tags2 kwargs2
              {| routes := routes w
                   ++ imap (route_of (fresh_viewset cls1 w) prefix1 tags1
                              kwargs1) (take k1 (cls_routes_config cls1));
                 constructed := S (constructed w) |})
    as (k2 & out2 & _ & -> & _).
  unfold added. cbn [fst routes constructed].
  rewrite !drop_app_length.
  split; [by rewrite <- List.app_assoc|]. split; [done|].
  split; apply Forall_lookup; by intros i r (rc & _ & ->)%list_lookup_imap_Some.
Qed.


(** X9.  Without a [dependencies] override, the dependency list of every
    entry is the descriptor's own, the empty list when the descriptor has
    none. *)
Theorem X9_no_override_leaves_descriptor_dependencies cls prefix tags
    (kwargs : gmap string Value) w i r rc :
  kwargs !! "dependencies" = None →
  added w (register_viewset host_check cls prefix tags kwargs w).1 !! i = Some r →
  cls_routes_config cls !! i = Some rc →
  APIRoute.dependencies r = get (RouteConfigDict.dependencies rc) [].
Proof.
  intros Hnone (rc' & Hrc' & ->)%added_lookup Hrc.
  assert (rc' = rc) as -> by congruence.
  cbn [route_of APIRoute.dependencies]. unfold caller_dependencies.
  rewrite Hnone. destruct i; apply List.app_nil_r.
Qed.

End Extras.

Section Errors.

Variable host_check : APIRoute.t → option Exn.

(** The four ways an iteration can go. *)
Lemma register_routes_cons_cases viewset prefix tags rc rest
    (kwargs : gmap string Value) w :
  let run := register_routes host_check viewset prefix tags (rc :: rest)
               kwargs w in
  ((RouteConfigDict.endpoint_name rc ∉ attributes (instance_class viewset))
   ∧ run = (w, inl (AttributeError (RouteConfigDict.endpoint_name rc))))
  ∨ (overrides_ok kwargs = false ∧ ∃ msg, run = (w, inl (TypeError msg)))
  ∨ (∃ e, host_check (route_of viewset prefix tags kwargs 0 rc) = Some e
          ∧ run = (w, inl e))
  ∨ (overrides_ok kwargs = true
     ∧ run = register_routes host_check viewset prefix tags rest
               (delete "dependencies" kwargs)
               (with_routes w [route_of viewset prefix tags kwargs 0 rc])).
Proof.
  intros run. subst run.
  destruct (decide (RouteConfigDict.endpoint_name rc
                    ∈ attributes (instance_class viewset))) as [Hin|Hnin].
  - right. destruct (overrides_ok kwargs) eqn:Hok.
    + right. destruct (host_check (route_of viewset prefix tags kwargs 0 rc))
        as [e|] eqn:Hhost.
      * left. exists e. split; [done|]. by apply register_routes_cons_rejected.
      * right. split; [done|]. by apply register_routes_cons_ok.
    + left. split; [done|]. by apply register_routes_cons_bad_overrides.
  - left. split; [done|]. by apply register_routes_cons_missing.
Qed.

(** X10.  Once the instance is constructed and [routes_config] has
    returned, the loop raises nothing of its own making: an exception that
    comes out of it is the [AttributeError] of a descriptor whose handler
    is missing, a [TypeError] from keyword overrides that cannot be
    forwarded, or the exception the host raised on one of the entries. *)
Theorem X10_every_exception_has_one_of_three_origins viewset prefix tags rcs
    (kwargs : gmap string Value) w e :
  (register_routes host_check viewset prefix tags rcs kwargs w).2 = inl e →
  (∃ rc, rc ∈ rcs
         ∧ (RouteConfigDict.endpoint_name rc
            ∉ attributes (instance_class viewset))
         ∧ e = AttributeError (RouteConfigDict.endpoint_name rc))
  ∨ (overrides_ok kwargs = false ∧ ∃ msg, e = TypeError msg)
  ∨ (∃ r, r ∈ imap (route_of viewset prefix tags kwargs) rcs
          ∧ host_check r = Some e).
Proof.
  revert kwargs w. induction rcs as [|rc rest IH]; intros kwargs w Hrun; [done|].
  destruct (register_routes_cons_cases viewset prefix tags rc rest kwargs w)
    as [[Hnin Heq]|[[Hbad [msg Heq]]|[(e' & Hhost & Heq)|[Hok Heq]]]];
    rewrite Heq in Hrun.
  - cbn [snd] in Hrun. injection Hrun as <-. left. exists rc. split; [apply list_elem_of_here|done].
  - cbn [snd] in Hrun. injection Hrun as <-. right. left. eauto.
  - cbn [snd] in Hrun. injection Hrun as <-. right. right. eexists. split; [|done].
    rewrite imap_cons. apply list_elem_of_here.
  - apply IH in Hrun as [(rc' & Hel & Hnin & ->)|[[Hbad _]|(r & Hel & Hhost)]].
    + left. exists rc'. split; [by apply list_elem_of_further|done].
    + apply overrides_ok_popped in Hok. congruence.
    + right. right. exists r. split; [|done].
      rewrite imap_cons, <- imap_route_of_popped. by apply list_elem_of_further.
Qed.

End Errors.

(** ** These properties at work on the viewset of the test suite *)

Lemma X2_witness :
  cls_routes_config mock_viewset_with_routes = mock_list :: [mock_create]
  ∧ RouteConfigDict.endpoint_name mock_list ∈ attributes mock_viewset_with_routes
  ∧ "path" ∈ forwarded_by_name
  ∧ is_Some (with_path !! "path")
  ∧ (with_path !! "dependencies" = None
     ∨ (∃ deps, with_path !! "dependencies" = Some (VList deps)))
  ∧ register_viewset accept_all mock_viewset_with_routes "/mock" None
      with_path empty_world
    = ({| routes := routes empty_world;
          constructed := S (constructed empty_world) |},
       inl (TypeError "got multiple values for keyword argument")).
Proof.
  assert (Hin : RouteConfigDict.endpoint_name mock_list
                ∈ attributes mock_viewset_with_routes) by by vm_compute.
  assert (Hk : "path" ∈ forwarded_by_name) by apply list_elem_of_here.
  assert (Hsome : is_Some (with_path !! "path")) by (by eexists; vm_compute).
  assert (Hdeps : with_path !! "dependencies" = None
                  ∨ (∃ deps, with_path !! "dependencies" = Some (VList deps)))
    by (left; by vm_compute).
  split; [done|]. split; [exact Hin|]. split; [exact Hk|].
  split; [exact Hsome|]. split; [exact Hdeps|].
  apply (X2_repeated_keyword_is_type_error accept_all mock_viewset_with_routes
           "/mock" None with_path empty_world mock_list [mock_create] "path");
    done.
Defined.

Lemma X3_witness :
  cls_routes_config mock_viewset_with_routes = mock_list :: [mock_create]
  ∧ RouteConfigDict.endpoint_name mock_list ∈ attributes mock_viewset_with_routes
  ∧ with_none_dependencies !! "dependencies" = Some VNone
  ∧ (∀ xs, VNone ≠ VList xs)
  ∧ ∃ msg, register_viewset accept_all mock_viewset_with_routes "/mock" None
             with_none_dependencies empty_world
           = ({| routes := routes empty_world;
                 constructed := S (constructed empty_world) |},
              inl (TypeError msg)).
Proof.
  assert (Hin : RouteConfigDict.endpoint_name mock_list
                ∈ attributes mock_viewset_with_routes) by by vm_compute.
  assert (Hv : with_none_dependencies !! "dependencies" = Some VNone)
    by by vm_compute.
  split; [done|]. split; [exact Hin|]. split; [exact Hv|]. split; [done|].
  apply (X3_dependencies_not_a_list_is_type_error accept_all
           mock_viewset_with_routes "/mock" None with_none_dependencies
           empty_world mock_list [mock_create] VNone); done.
Defined.

Lemma X4_witness :
  cls_routes_config mock_viewset_with_routes = [mock_list] ++ mock_create :: []
  ∧ Forall (λ rc', RouteConfigDict.endpoint_name rc'
                   ∈ attributes mock_viewset_with_routes) [mock_list]
  ∧ RouteConfigDict.endpoint_name mock_create
    ∈ attributes mock_viewset_with_routes
  ∧ overrides_ok with_auth = true
  ∧ Forall (λ r, reject_post r = None)
      (imap (route_of (fresh_viewset mock_viewset_with_routes empty_world)
               "/mock" None with_auth) [mock_list])
  ∧ reject_post
      (route_of (fresh_viewset mock_viewset_with_routes empty_world) "/mock"
         None with_auth (length [mock_list]) mock_create)
    = Some (FrameworkError "POST is not served")
  ∧ register_viewset reject_post mock_viewset_with_routes "/mock" None
      with_auth empty_world
    = ({| routes := routes empty_world
                    ++ imap (route_of (fresh_viewset mock_viewset_with_routes
                                         empty_world) "/mock" None with_auth)
                         [mock_list];
          constructed := S (constructed empty_world) |},
       inl (FrameworkError "POST is not served")).
Proof.
  assert (Hres : Forall (λ rc', RouteConfigDict.endpoint_name rc'
                                ∈ attributes mock_viewset_with_routes)
                   [mock_list]) by (repeat constructor; by vm_compute).
  assert (Hin : RouteConfigDict.endpoint_name mock_create
                ∈ attributes mock_viewset_with_routes) by by vm_compute.
  split; [done|]. split; [exact Hres|]. split; [exact Hin|].
  split; [by vm_compute|]. split; [repeat constructor|]. split; [by vm_compute|].
  apply (X4_host_exception_propagates_and_keeps_routes reject_post
           mock_viewset_with_routes "/mock" None with_auth empty_world
           [mock_list] mock_create []).
  - done.
  - exact Hres.
  - exact Hin.
  - by vm_compute.
  - repeat constructor.
  - by vm_compute.
Defined.

Lemma X5_witness :
  added empty_world
    (register_viewset accept_all mock_viewset_with_routes "/mock" None
       with_summary empty_world).1 !! 1
  = Some (mock_create_route None {["summary" := VStr "Mock"]})
  ∧ APIRoute.kwargs (mock_create_route None {["summary" := VStr "Mock"]})
      !! "dependencies" = None
  ∧ ∀ k, k ≠ "dependencies" →
         APIRoute.kwargs (mock_create_route None {["summary" := VStr "Mock"]})
           !! k = with_summary !! k.
Proof.
  split; [by vm_compute|].
  apply (X5_other_overrides_reach_every_route accept_all
           mock_viewset_with_routes "/mock" None with_summary empty_world 1).
  by vm_compute.
Defined.

Lemma X6_witness :
  added empty_world
    (register_viewset accept_all mock_viewset_with_routes "/mock" None ∅
       empty_world).1 !! 0
  = Some (mock_list_route 0 None [] ∅)
  ∧ cls_routes_config mock_viewset_with_routes !! 0 = Some mock_list
  ∧ APIRoute.methods (mock_list_route 0 None [] ∅)
    = [RouteConfigDict.method mock_list]
  ∧ bound_name (APIRoute.endpoint (mock_list_route 0 None [] ∅))
    = RouteConfigDict.endpoint_name mock_list
  ∧ APIRoute.response_model (mock_list_route 0 None [] ∅)
    = get (RouteConfigDict.response_model mock_list) VNone.
Proof.
  split; [by vm_compute|]. split; [done|].
  apply (X6_method_endpoint_and_response_model accept_all
           mock_viewset_with_routes "/mock" None ∅ empty_world 0).
  - by vm_compute.
  - done.
Defined.

Lemma X7_witness :
  (mock_call empty_world).2 = inr ()
  ∧ routes (mock_call_twice empty_world).1
    = routes empty_world
      ++ added empty_world (mock_call empty_world).1
      ++ added (mock_call empty_world).1 (mock_call_twice empty_world).1
  ∧ constructed (mock_call_twice empty_world).1
    = S (S (constructed empty_world))
  ∧ Forall (λ r, bound_self (APIRoute.endpoint r) = constructed empty_world)
      (added empty_world (mock_call empty_world).1)
  ∧ Forall (λ r, bound_self (APIRoute.endpoint r)
                 = S (constructed empty_world))
      (added (mock_call empty_world).1 (mock_call_twice empty_world).1).
Proof.
  split; [by vm_compute|].
  apply (X7_two_calls_use_two_instances leading_slash
           mock_viewset_with_routes "/mock" None with_auth
           mock_viewset_with_routes "/again" (Some ["v2"]) ∅ empty_world).
  by vm_compute.
Defined.

Lemma X9_witness :
  (∅ : gmap string Value) !! "dependencies" = None
  ∧ added empty_world
      (register_viewset accept_all mock_viewset_with_routes "/mock" None ∅
         empty_world).1 !! 1
    = Some (mock_create_route None ∅)
  ∧ cls_routes_config mock_viewset_with_routes !! 1 = Some mock_create
  ∧ APIRoute.dependencies (mock_create_route None ∅)
    = get (RouteConfigDict.dependencies mock_create) [].
Proof.
  split; [done|]. split; [by vm_compute|]. split; [done|].
  apply (X9_no_override_leaves_descriptor_dependencies accept_all
           mock_viewset_with_routes "/mock" None ∅ empty_world 1).
  - done.
  - by vm_compute.
  - done.
Defined.

Lemma X10_witness :
  (register_routes accept_all (fresh_viewset broken_viewset empty_world)
     "/mock" None mock_routes with_auth empty_world).2
  = inl (AttributeError "create")
  ∧ ((∃ rc, rc ∈ mock_routes
            ∧ (RouteConfigDict.endpoint_name rc
               ∉ attributes (instance_class
                               (fresh_viewset broken_viewset empty_world)))
            ∧ AttributeError "create"
              = AttributeError (RouteConfigDict.endpoint_name rc))
     ∨ (overrides_ok with_auth = false
        ∧ ∃ msg, AttributeError "create" = TypeError msg)
     ∨ (∃ r, r ∈ imap (route_of (fresh_viewset broken_viewset empty_world)
                         "/mock" None with_auth) mock_routes
             ∧ accept_all r = Some (AttributeError "create"))).
Proof.
  split; [by vm_compute|].
  apply (X10_every_exception_has_one_of_three_origins accept_all
           (fresh_viewset broken_viewset empty_world) "/mock" None mock_routes
           with_auth empty_world).
  by vm_compute.
Defined.
